(** * langgraph constants: reserved keys, Send, Interrupt and Command

    A shallow embedding of [libs/langgraph/src/constants.ts].  JavaScript
    values are an inductive type with the dynamic checks the source performs
    ([typeof], truthiness, [Array.isArray], property reads that throw on
    [null]/[undefined]); classes are records; the one consumer of a constant
    that lives in another module, the reader of the recursion limit, is
    modelled from the specification and marked as such. *)

From Stdlib Require Import String List Bool ZArith.
Import ListNotations.
Open Scope string_scope.

(** ** Exceptions *)

Inductive JSError : Type :=
| TypeError.

Inductive Result (A : Type) : Type :=
| Ok (a : A)
| Throw (e : JSError).

Arguments Ok {A} a.
Arguments Throw {A} e.

Definition bind {A B : Type} (r : Result A) (k : A -> Result B) : Result B :=
  match r with
  | Ok a => k a
  | Throw e => Throw e
  end.

Notation "x <- r ;; k" := (bind r (fun x => k))
  (at level 61, r at next level, right associativity).

(** ** JavaScript values

    Objects list their own enumerable string-keyed properties in enumeration
    order, which is the order [Object.entries] reports.  Numbers are
    restricted to integers: no operation below inspects a number beyond its
    type tag and truthiness. *)

#[warnings="-register-all"]
Inductive JSValue : Type :=
| JUndefined
| JNull
| JBool (b : bool)
| JNum (n : Z)
| JStr (s : string)
| JArr (elems : list JSValue)
| JObj (props : list (string * JSValue)).

Definition typeof (x : JSValue) : string :=
  match x with
  | JUndefined => "undefined"
  | JNull => "object"
  | JBool _ => "boolean"
  | JNum _ => "number"
  | JStr _ => "string"
  | JArr _ => "object"
  | JObj _ => "object"
  end.

(** [!!x] *)
Definition truthy (x : JSValue) : bool :=
  match x with
  | JUndefined => false
  | JNull => false
  | JBool b => b
  | JNum n => negb (Z.eqb n 0)
  | JStr s => negb (String.eqb s "")
  | JArr _ => true
  | JObj _ => true
  end.

Definition Array_isArray (x : JSValue) : bool :=
  match x with
  | JArr _ => true
  | _ => false
  end.

Fixpoint lookup (k : string) (props : list (string * JSValue)) : JSValue :=
  match props with
  | [] => JUndefined
  | (k', v) :: rest => if String.eqb k k' then v else lookup k rest
  end.

(** The property read [x.k], for the keys the source reads ([node], [args],
    [lg_name]): none of them is a property of arrays or of the wrappers of
    primitives, so only objects can answer with something else than
    [undefined].  Reading a property of [null] or [undefined] throws. *)
Definition get (x : JSValue) (k : string) : Result JSValue :=
  match x with
  | JUndefined => Throw TypeError
  | JNull => Throw TypeError
  | JObj props => Ok (lookup k props)
  | _ => Ok JUndefined
  end.

(** [v === s] for a string literal [s] *)
Definition strict_eq_str (v : JSValue) (s : string) : bool :=
  match v with
  | JStr t => String.eqb t s
  | _ => false
  end.

(** [v !== undefined] *)
Definition is_defined (v : JSValue) : bool :=
  match v with
  | JUndefined => false
  | _ => true
  end.

(** ** Constants *)

Definition INPUT := "__input__".
Definition ERROR := "__error__".
Definition CONFIG_KEY_SEND := "__pregel_send".
Definition CONFIG_KEY_READ := "__pregel_read".
Definition CONFIG_KEY_CHECKPOINTER := "__pregel_checkpointer".
Definition CONFIG_KEY_RESUMING := "__pregel_resuming".
Definition CONFIG_KEY_TASK_ID := "__pregel_task_id".
Definition CONFIG_KEY_STREAM := "__pregel_stream".
Definition CONFIG_KEY_RESUME_VALUE := "__pregel_resume_value".
Definition CONFIG_KEY_WRITES := "__pregel_writes".
Definition CONFIG_KEY_SCRATCHPAD := "__pregel_scratchpad".
Definition CONFIG_KEY_CHECKPOINT_NS := "checkpoint_ns".
Definition CONFIG_KEY_CHECKPOINT_MAP := "checkpoint_map".

Definition INTERRUPT := "__interrupt__".
Definition RESUME := "__resume__".
Definition RUNTIME_PLACEHOLDER := "__pregel_runtime_placeholder__".
Definition RECURSION_LIMIT_DEFAULT : nat := 25.

Definition TAG_HIDDEN := "langsmith:hidden".
Definition TAG_NOSTREAM := "langsmith:nostream".
Definition SELF := "__self__".

Definition TASKS := "__pregel_tasks".
Definition PUSH := "__pregel_push".
Definition PULL := "__pregel_pull".

Definition TASK_NAMESPACE := "6ba7b831-9dad-11d1-80b4-00c04fd430c8".
Definition NULL_TASK_ID := "00000000-0000-0000-0000-000000000000".

Definition RESERVED : list string :=
  [ INTERRUPT;
    RESUME;
    ERROR;
    TASKS;
    CONFIG_KEY_SEND;
    CONFIG_KEY_READ;
    CONFIG_KEY_CHECKPOINTER;
    CONFIG_KEY_RESUMING;
    CONFIG_KEY_TASK_ID;
    CONFIG_KEY_STREAM;
    CONFIG_KEY_CHECKPOINT_MAP;
    INPUT ].

Definition CHECKPOINT_NAMESPACE_SEPARATOR := "|".
Definition CHECKPOINT_NAMESPACE_END := ":".

(** [xs.includes(k)] on an array of strings *)
Definition includes (xs : list string) (k : string) : bool :=
  existsb (String.eqb k) xs.

(** ** Send *)

Definition _isSendInterface (x : JSValue) : Result bool :=
  n <- get x "node" ;;
  if String.eqb (typeof n) "string"
  then a <- get x "args" ;; Ok (is_defined a)
  else Ok false.

Record Send : Type := mkSend {
  Send_lg_name : string;
  node : string;
  args : JSValue
}.

(** [new Send(node, args)] *)
Definition new_Send (node : string) (args : JSValue) : Send :=
  {| Send_lg_name := "Send"; node := node; args := args |}.

(** A [Send] instance seen as a plain value: parameter properties first, then
    the initialised field. *)
Definition Send_to_value (s : Send) : JSValue :=
  JObj [ ("node", JStr (node s));
         ("args", args s);
         ("lg_name", JStr (Send_lg_name s)) ].

Definition _isSend (x : JSValue) : Result bool :=
  if is_defined x
  then l <- get x "lg_name" ;; Ok (strict_eq_str l "Send")
  else Ok false.

(** ** Interrupt *)

(** The literal type ["during"]. *)
Inductive InterruptWhen : Type :=
| during.

Definition InterruptWhen_to_string (w : InterruptWhen) : string :=
  match w with
  | during => "during"
  end.

Record Interrupt : Type := mkInterrupt {
  value : JSValue;
  when : InterruptWhen;
  resumable : option bool;
  ns : option (list string)
}.

(** ** Command *)

(** One routing target: [string | Send]. *)
Inductive GotoTarget : Type :=
| GotoNode (name : string)
| GotoSend (s : Send).

(** [string | Send | (string | Send)[]] *)
Inductive Goto : Type :=
| GotoOne (t : GotoTarget)
| GotoMany (ts : list GotoTarget).

(** Optional properties read as [undefined] when absent: [update] and
    [resume] are untyped at run time and hold [JUndefined] then, [graph] and
    [goto] are [None]. *)
Record CommandParams : Type := mkCommandParams {
  cp_resume : JSValue;
  cp_graph : option string;
  cp_update : JSValue;
  cp_goto : option Goto
}.

Record Command : Type := mkCommand {
  lg_name : string;
  lc_direct_tool_output : bool;
  graph : option string;
  update : JSValue;
  resume : JSValue;
  goto : Goto
}.

Definition Command_PARENT := "__parent__".

(** Truthiness of [args.goto]: an absent property and the empty string are
    falsy, every object (a [Send], an array, even an empty one) is truthy. *)
Definition goto_truthy (g : option Goto) : bool :=
  match g with
  | None => false
  | Some (GotoOne (GotoNode name)) => negb (String.eqb name "")
  | Some (GotoOne (GotoSend _)) => true
  | Some (GotoMany _) => true
  end.

(** [Array.isArray(g) ? g : [g]] *)
Definition goto_as_array (g : Goto) : Goto :=
  match g with
  | GotoMany ts => GotoMany ts
  | GotoOne t => GotoMany [t]
  end.

(** [new Command(args)]: the field initialisers run first ([update = []],
    [goto = []]), then the constructor body assigns [resume], [graph] and
    [update] and, under its guard, [goto]. *)
Definition new_Command (a : CommandParams) : Command :=
  {| lg_name := "Command";
     lc_direct_tool_output := true;
     graph := cp_graph a;
     update := cp_update a;
     resume := cp_resume a;
     goto := match cp_goto a with
             | Some g => if goto_truthy (cp_goto a) then goto_as_array g
                         else GotoMany []
             | None => GotoMany []
             end |}.

(** [Object.entries(o)] *)
Definition Object_entries (o : JSValue) : list JSValue :=
  match o with
  | JObj props => map (fun kv => JArr [JStr (fst kv); snd kv]) props
  | _ => []
  end.

(** The callback of [every]:
    [Array.isArray(t) && t.length === 2 && typeof t[0] === "string"]. *)
Definition is_string_pair (t : JSValue) : bool :=
  match t with
  | JArr elems =>
      Nat.eqb (length elems) 2
      && String.eqb (typeof (nth 0 elems JUndefined)) "string"
  | _ => false
  end.

(** [xs.every(p)] for an array value *)
Definition every (p : JSValue -> bool) (x : JSValue) : bool :=
  match x with
  | JArr elems => forallb p elems
  | _ => false
  end.

Definition array_elems (x : JSValue) : list JSValue :=
  match x with
  | JArr elems => elems
  | _ => []
  end.

(** The result is the returned JavaScript array, element by element. *)
Definition _updateAsTuples (c : Command) : list JSValue :=
  if truthy (update c)
     && String.eqb (typeof (update c)) "object"
     && negb (Array_isArray (update c))
  then Object_entries (update c)
  else if Array_isArray (update c) && every is_string_pair (update c)
  then array_elems (update c)
  else [JArr [JStr "__root__"; update c]].

Definition goto_targets_to_value (t : GotoTarget) : JSValue :=
  match t with
  | GotoNode name => JStr name
  | GotoSend s => Send_to_value s
  end.

Definition Goto_to_value (g : Goto) : JSValue :=
  match g with
  | GotoOne t => goto_targets_to_value t
  | GotoMany ts => JArr (map goto_targets_to_value ts)
  end.

Definition opt_string_to_value (o : option string) : JSValue :=
  match o with
  | Some s => JStr s
  | None => JUndefined
  end.

(** A [Command] instance seen as a plain value, properties in the order the
    class declares them. *)
Definition Command_to_value (c : Command) : JSValue :=
  JObj [ ("lg_name", JStr (lg_name c));
         ("lc_direct_tool_output", JBool (lc_direct_tool_output c));
         ("graph", opt_string_to_value (graph c));
         ("update", update c);
         ("resume", resume c);
         ("goto", Goto_to_value (goto c)) ].

Definition isCommand (x : JSValue) : Result bool :=
  if String.eqb (typeof x) "object"
  then if truthy x
       then l <- get x "lg_name" ;; Ok (strict_eq_str l "Command")
       else Ok false
  else Ok false.

(** [new Command(c)] for a Command [c]: a Command has every property of
    [CommandParams], so its own fields are read as the arguments. *)
Definition Command_as_params (c : Command) : CommandParams :=
  {| cp_resume := resume c;
     cp_graph := graph c;
     cp_update := update c;
     cp_goto := Some (goto c) |}.

(** ** Run configuration *)

(** Modelled from the spec: the configuration options of section 6. *)
Record RunConfig : Type := mkRunConfig {
  cfg_thread_id : option string;
  cfg_checkpoint_ns : option string;
  cfg_checkpoint_id : option string;
  cfg_recursion_limit : option nat
}.

(** Modelled from the spec: the code that reads [recursion_limit] from the
    caller's configuration is in the engine, of which only the
    [RECURSION_LIMIT_DEFAULT] constant is in constants.ts.  Section 6:
    recognised options include [recursion_limit] (default 25). *)
Definition effective_recursion_limit (cfg : RunConfig) : nat :=
  match cfg_recursion_limit cfg with
  | Some n => n
  | None => RECURSION_LIMIT_DEFAULT
  end.

(** * Properties *)

(** ** Reserved keys *)

Lemma includes_In (xs : list string) (k : string) :
  includes xs k = true <-> In k xs.
Proof.
  unfold includes. rewrite existsb_exists. split.
  - intros [y [Hin Heq]]. apply String.eqb_eq in Heq. now subst.
  - intros Hin. exists k. split; [assumption | apply String.eqb_refl].
Qed.

(** C1: the registry [RESERVED] holds [__error__], [__interrupt__],
    [__input__] and the send and read keys, but the task-scoped write key, the
    resume-value slot key and the scratchpad key are not members of it. *)
Theorem RESERVED_membership :
  includes RESERVED ERROR = true /\
  includes RESERVED INTERRUPT = true /\
  includes RESERVED INPUT = true /\
  includes RESERVED CONFIG_KEY_SEND = true /\
  includes RESERVED CONFIG_KEY_READ = true /\
  includes RESERVED CONFIG_KEY_WRITES = false /\
  includes RESERVED CONFIG_KEY_RESUME_VALUE = false /\
  includes RESERVED CONFIG_KEY_SCRATCHPAD = false.
Proof. repeat split; reflexivity. Qed.

Lemma RESERVED_lacks_resume_value : ~ In CONFIG_KEY_RESUME_VALUE RESERVED.
Proof.
  intros Hin. apply includes_In in Hin. discriminate Hin.
Qed.

(** ** Interrupt *)

(** C3, as stated: every Interrupt would carry a boolean [resumable] flag.
    The field is optional, and an Interrupt without it is well typed. *)
Lemma Interrupt_resumable_optional :
  ~ (forall i : Interrupt, exists b : bool, resumable i = Some b).
Proof.
  intros H.
  destruct (H (mkInterrupt (JStr "need input") during None None)) as [b Hb].
  discriminate Hb.
Qed.

(** C3, amended: every Interrupt is made of a payload [value], a [when] field
    that is exactly the string "during", an optional boolean [resumable] and
    an optional namespace path [ns]. *)
Theorem Interrupt_shape (i : Interrupt) :
  InterruptWhen_to_string (when i) = "during" /\
  exists (v : JSValue) (r : option bool) (n : option (list string)),
    i = mkInterrupt v during r n.
Proof.
  destruct i as [v w r n]. destruct w. split.
  - reflexivity.
  - exists v, r, n. reflexivity.
Qed.

(** ** Recursion limit *)

(** C4: a configuration that does not set [recursion_limit] runs with the
    limit 25. *)
Theorem recursion_limit_default (cfg : RunConfig) :
  cfg_recursion_limit cfg = None ->
  effective_recursion_limit cfg = 25.
Proof.
  intros Hunset. unfold effective_recursion_limit. rewrite Hunset.
  reflexivity.
Qed.

Lemma recursion_limit_default_witness :
  effective_recursion_limit (mkRunConfig (Some "1") None None None) = 25.
Proof.
  apply (recursion_limit_default (mkRunConfig (Some "1") None None None)).
  reflexivity.
Defined.

Lemma recursion_limit_explicit (cfg : RunConfig) (n : nat) :
  cfg_recursion_limit cfg = Some n -> effective_recursion_limit cfg = n.
Proof.
  intros Hset. unfold effective_recursion_limit. now rewrite Hset.
Qed.

(** ** Send *)

Lemma typeof_string (v : JSValue) :
  String.eqb (typeof v) "string" = true <-> exists s, v = JStr s.
Proof.
  split.
  - destruct v; simpl; intros H; try discriminate H. now exists s.
  - intros [s ->]. reflexivity.
Qed.

Lemma is_defined_true (v : JSValue) :
  is_defined v = true <-> v <> JUndefined.
Proof.
  destruct v; simpl; split; intros H; try reflexivity; try discriminate;
    try congruence.
Qed.

(** Reading the fields of [null] or [undefined] throws instead of answering. *)
Lemma _isSendInterface_throws (x : JSValue) :
  _isSendInterface x = Throw TypeError <-> x = JUndefined \/ x = JNull.
Proof.
  split.
  - unfold _isSendInterface.
    destruct x; simpl; auto; try discriminate.
    destruct (String.eqb (typeof (lookup "node" props)) "string");
      discriminate.
  - intros [-> | ->]; reflexivity.
Qed.

(** C6: [_isSendInterface] answers [true] exactly when the [node] field of
    its argument is a string and its [args] field is defined, and
    [new Send(node, args)] stores both arguments unchanged. *)
Theorem _isSendInterface_spec (x : JSValue) (n : string) (a : JSValue) :
  (_isSendInterface x = Ok true <->
     (exists s, get x "node" = Ok (JStr s)) /\
     (exists v, get x "args" = Ok v /\ v <> JUndefined))
  /\ node (new_Send n a) = n
  /\ args (new_Send n a) = a.
Proof.
  split; [| split; reflexivity].
  unfold _isSendInterface. split.
  - destruct (get x "node") as [nd |] eqn:Hnode; simpl; [| discriminate].
    destruct (String.eqb (typeof nd) "string") eqn:Hty; [| discriminate].
    apply typeof_string in Hty. destruct Hty as [s ->].
    destruct (get x "args") as [v |] eqn:Hargs; simpl; [| discriminate].
    intros H. injection H as Hdef. apply is_defined_true in Hdef.
    split; [now exists s | now exists v].
  - intros [[s Hnode] [v [Hargs Hdef]]].
    rewrite Hnode. simpl. rewrite Hargs. simpl.
    apply is_defined_true in Hdef. now rewrite Hdef.
Qed.

Lemma _isSendInterface_spec_witness :
  _isSendInterface (Send_to_value (new_Send "generate_joke" JNull)) = Ok true.
Proof.
  destruct (_isSendInterface_spec
              (Send_to_value (new_Send "generate_joke" JNull))
              "generate_joke" JNull) as [Hiff _].
  apply Hiff. split.
  - exists "generate_joke". reflexivity.
  - exists JNull. split; [reflexivity | discriminate].
Defined.

Example _isSendInterface_undefined_args :
  _isSendInterface (Send_to_value (new_Send "generate_joke" JUndefined))
  = Ok false.
Proof. reflexivity. Qed.

(** ** Command construction *)

(** C5, as stated: a single string would always be wrapped in a one-element
    array.  The empty string is falsy, the constructor's guard skips it, and
    [goto] keeps its initial empty array. *)
Lemma Command_goto_empty_string :
  goto (new_Command
          (mkCommandParams JUndefined None JUndefined
             (Some (GotoOne (GotoNode "")))))
  = GotoMany []
  /\ goto (new_Command
             (mkCommandParams JUndefined None JUndefined
                (Some (GotoOne (GotoNode "")))))
     <> GotoMany [GotoNode ""].
Proof. split; [reflexivity | discriminate]. Qed.

(** C5, amended: the constructed Command's [goto] is always an array: an array
    is kept as given, a single Send or a single non-empty string is wrapped in
    a one-element array, and an absent [goto] or the empty string yields the
    empty array; [update], [graph] and [resume] are stored as passed. *)
Theorem Command_constructor_spec (a : CommandParams) :
  (exists ts, goto (new_Command a) = GotoMany ts)
  /\ goto (new_Command a)
     = match cp_goto a with
       | None => GotoMany []
       | Some (GotoMany ts) => GotoMany ts
       | Some (GotoOne (GotoSend s)) => GotoMany [GotoSend s]
       | Some (GotoOne (GotoNode name)) =>
           if String.eqb name "" then GotoMany []
           else GotoMany [GotoNode name]
       end
  /\ update (new_Command a) = cp_update a
  /\ graph (new_Command a) = cp_graph a
  /\ resume (new_Command a) = cp_resume a.
Proof.
  destruct a as [r g u gt]. unfold new_Command. simpl.
  destruct gt as [[[name | s] | ts] |]; simpl.
  - destruct (String.eqb name ""); simpl; repeat split; eauto.
  - repeat split; eauto.
  - repeat split; eauto.
  - repeat split; eauto.
Qed.

(** ** Updates as tuples *)

(** A two-element array whose first component is a string. *)
Definition string_value_pair (t : JSValue) : Prop :=
  exists (k : string) (v : JSValue), t = JArr [JStr k; v].

Lemma is_string_pair_true (t : JSValue) :
  is_string_pair t = true <-> string_value_pair t.
Proof.
  split.
  - destruct t as [| | | | | elems |]; simpl; try discriminate.
    destruct elems as [| x [| y [| z rest]]]; simpl; try discriminate.
    intros Hty. apply typeof_string in Hty. destruct Hty as [k ->].
    now exists k, y.
  - intros [k [v ->]]. reflexivity.
Qed.

Lemma Object_entries_pairs (o : JSValue) :
  Forall string_value_pair (Object_entries o).
Proof.
  destruct o as [| | | | | |props]; simpl; try constructor.
  induction props as [| [k v] rest IH]; simpl; constructor.
  - now exists k, v.
  - exact IH.
Qed.

Lemma _updateAsTuples_object (c : Command) (props : list (string * JSValue)) :
  update c = JObj props ->
  _updateAsTuples c = map (fun kv => JArr [JStr (fst kv); snd kv]) props.
Proof.
  intros Hu. unfold _updateAsTuples. rewrite Hu. reflexivity.
Qed.

Lemma _updateAsTuples_pairs (c : Command) (elems : list JSValue) :
  update c = JArr elems ->
  forallb is_string_pair elems = true ->
  _updateAsTuples c = elems.
Proof.
  intros Hu Hall. unfold _updateAsTuples. rewrite Hu. simpl.
  now rewrite Hall.
Qed.

Lemma _updateAsTuples_root (c : Command) :
  (forall props, update c <> JObj props) ->
  (forall elems,
      update c = JArr elems -> forallb is_string_pair elems = false) ->
  _updateAsTuples c = [JArr [JStr "__root__"; update c]].
Proof.
  intros Hobj Harr. unfold _updateAsTuples.
  destruct (update c) as [| | b | n | s | elems | props] eqn:Hu; simpl;
    try reflexivity.
  - destruct b; reflexivity.
  - destruct (negb (Z.eqb n 0)); reflexivity.
  - destruct (negb (String.eqb s "")); reflexivity.
  - now rewrite (Harr elems eq_refl).
  - now destruct (Hobj props).
Qed.

(** C9: [_updateAsTuples] always returns a list of (string, value) pairs: the
    entries of a non-array object, the array itself when every element is a
    two-element pair with a string first component, and in every other case
    the single pair ("__root__", update); a Command built without an update
    yields [("__root__", undefined)]. *)
Theorem _updateAsTuples_spec (c : Command) (a : CommandParams) :
  Forall string_value_pair (_updateAsTuples c)
  /\ (forall props,
        update c = JObj props ->
        _updateAsTuples c
        = map (fun kv => JArr [JStr (fst kv); snd kv]) props)
  /\ (forall elems,
        update c = JArr elems ->
        Forall string_value_pair elems ->
        _updateAsTuples c = elems)
  /\ ((forall props, update c <> JObj props) ->
      ~ (exists elems,
            update c = JArr elems /\ Forall string_value_pair elems) ->
      _updateAsTuples c = [JArr [JStr "__root__"; update c]])
  /\ (cp_update a = JUndefined ->
      _updateAsTuples (new_Command a)
      = [JArr [JStr "__root__"; JUndefined]]).
Proof.
  assert (Hall : forall elems,
             forallb is_string_pair elems = true
             <-> Forall string_value_pair elems).
  { intros elems. rewrite forallb_forall, Forall_forall.
    split; intros H t Ht; apply is_string_pair_true, H, Ht. }
  split; [| split; [| split; [| split]]].
  - unfold _updateAsTuples.
    destruct (update c) as [| | b | n | s | elems | props] eqn:Hu; simpl;
      try (constructor; [now eexists _, _ | constructor]).
    + destruct b; constructor; try constructor; now eexists _, _.
    + destruct (negb (Z.eqb n 0)); constructor; try constructor;
        now eexists _, _.
    + destruct (negb (String.eqb s "")); constructor; try constructor;
        now eexists _, _.
    + destruct (forallb is_string_pair elems) eqn:Hev.
      * now apply Hall.
      * constructor; [now eexists _, _ | constructor].
    + apply (Object_entries_pairs (JObj props)).
  - apply _updateAsTuples_object.
  - intros elems Hu Hpairs. apply _updateAsTuples_pairs; [exact Hu |].
    now apply Hall.
  - intros Hobj Harr. apply _updateAsTuples_root; [exact Hobj |].
    intros elems Hu.
    destruct (forallb is_string_pair elems) eqn:Hev; [| reflexivity].
    exfalso. apply Harr. exists elems. split; [exact Hu | now apply Hall].
  - intros Hu. unfold _updateAsTuples, new_Command. simpl. rewrite Hu.
    reflexivity.
Qed.

Lemma _updateAsTuples_spec_witness :
  _updateAsTuples
    (new_Command (mkCommandParams JUndefined None JUndefined None))
  = [JArr [JStr "__root__"; JUndefined]]
  /\ _updateAsTuples
       (new_Command
          (mkCommandParams JUndefined None (JObj [("foo", JStr "a")]) None))
     = [JArr [JStr "foo"; JStr "a"]]
  /\ _updateAsTuples
       (new_Command
          (mkCommandParams JUndefined None
             (JArr [JArr [JStr "foo"; JStr "a"]]) None))
     = [JArr [JStr "foo"; JStr "a"]]
  /\ _updateAsTuples
       (new_Command (mkCommandParams JUndefined None (JNum 7) None))
     = [JArr [JStr "__root__"; JNum 7]].
Proof.
  split; [| split; [| split]].
  - destruct (_updateAsTuples_spec
                (new_Command
                   (mkCommandParams JUndefined None JUndefined None))
                (mkCommandParams JUndefined None JUndefined None))
      as [_ [_ [_ [_ Hnone]]]].
    apply Hnone. reflexivity.
  - destruct (_updateAsTuples_spec
                (new_Command
                   (mkCommandParams JUndefined None
                      (JObj [("foo", JStr "a")]) None))
                (mkCommandParams JUndefined None JUndefined None))
      as [_ [Hobj _]].
    apply (Hobj [("foo", JStr "a")]). reflexivity.
  - destruct (_updateAsTuples_spec
                (new_Command
                   (mkCommandParams JUndefined None
                      (JArr [JArr [JStr "foo"; JStr "a"]]) None))
                (mkCommandParams JUndefined None JUndefined None))
      as [_ [_ [Harr _]]].
    apply Harr; [reflexivity |].
    constructor; [| constructor]. exists "foo", (JStr "a"). reflexivity.
  - destruct (_updateAsTuples_spec
                (new_Command (mkCommandParams JUndefined None (JNum 7) None))
                (mkCommandParams JUndefined None JUndefined None))
      as [_ [_ [_ [Hroot _]]]].
    apply Hroot.
    + intros props. discriminate.
    + intros [elems [Hu _]]. discriminate Hu.
Defined.

Example _updateAsTuples_of_record :
  _updateAsTuples
    (new_Command
       (mkCommandParams JUndefined None (JObj [("foo", JStr "a")])
          (Some (GotoOne (GotoNode "nodeB")))))
  = [JArr [JStr "foo"; JStr "a"]].
Proof. reflexivity. Qed.

Example _updateAsTuples_of_mixed_array :
  _updateAsTuples
    (new_Command
       (mkCommandParams JUndefined None
          (JArr [JArr [JStr "foo"; JNum 1]; JNum 2]) None))
  = [JArr [JStr "__root__"; JArr [JArr [JStr "foo"; JNum 1]; JNum 2]]].
Proof. reflexivity. Qed.

(** ** Recognising commands *)

(** C10: [isCommand] never throws and always answers with a boolean; the
    answer is [true] exactly for a non-null object whose [lg_name] property
    is the string "Command", in particular for every Command the constructor
    builds. *)
Theorem isCommand_spec (x : JSValue) (a : CommandParams) :
  (exists b : bool, isCommand x = Ok b)
  /\ (isCommand x = Ok true <->
        typeof x = "object" /\ x <> JNull
        /\ get x "lg_name" = Ok (JStr "Command"))
  /\ isCommand (Command_to_value (new_Command a)) = Ok true.
Proof.
  split; [| split].
  - unfold isCommand.
    destruct x; simpl; eauto.
  - unfold isCommand. split.
    + destruct x as [| | b | n | s | elems | props]; simpl;
        try discriminate.
      intros H. injection H as H.
      destruct (lookup "lg_name" props) as [| | | | s | |] eqn:Hl;
        simpl in H; try discriminate H.
      apply String.eqb_eq in H. subst s.
      repeat split; discriminate.
    + intros [Hty [Hnn Hget]].
      destruct x as [| | b | n | s | elems | props]; simpl in *;
        try discriminate; try congruence.
      injection Hget as Hl. rewrite Hl. reflexivity.
  - reflexivity.
Qed.

Lemma isCommand_spec_witness :
  isCommand (JObj [("lg_name", JStr "Command")]) = Ok true.
Proof.
  destruct (isCommand_spec (JObj [("lg_name", JStr "Command")])
              (mkCommandParams JUndefined None JUndefined None))
    as [_ [Hiff _]].
  apply Hiff. split; [reflexivity | split; [discriminate | reflexivity]].
Defined.

Example isCommand_null : isCommand JNull = Ok false.
Proof. reflexivity. Qed.

Example isCommand_undefined : isCommand JUndefined = Ok false.
Proof. reflexivity. Qed.

Example isCommand_Send :
  isCommand (Send_to_value (new_Send "generate_joke" JNull)) = Ok false.
Proof. reflexivity. Qed.

(** * Further properties of constants.ts *)

(** ** Recognising sends *)

(** X2: [_isSend] guards against [undefined] only: it throws a TypeError
    exactly on [null] and answers with a boolean on every other value. *)
Theorem _isSend_throws (x : JSValue) :
  (_isSend x = Throw TypeError <-> x = JNull)
  /\ (x <> JNull -> exists b : bool, _isSend x = Ok b).
Proof.
  unfold _isSend. split; [split |].
  - destruct x; simpl; try discriminate; reflexivity.
  - intros ->. reflexivity.
  - intros Hnn. destruct x; simpl; eauto. now destruct Hnn.
Qed.

Lemma _isSend_throws_witness :
  _isSend JNull = Throw TypeError
  /\ exists b : bool, _isSend JUndefined = Ok b.
Proof.
  split.
  - apply (proj2 (proj1 (_isSend_throws JNull))). reflexivity.
  - apply (proj2 (_isSend_throws JUndefined)). discriminate.
Defined.

(** X3: [_isSendInterface] throws a TypeError exactly on [undefined] and
    [null]; it has no guard before its first property read. *)
Theorem _isSendInterface_throws_iff (x : JSValue) :
  (_isSendInterface x = Throw TypeError <-> x = JUndefined \/ x = JNull)
  /\ (x <> JUndefined -> x <> JNull ->
      exists b : bool, _isSendInterface x = Ok b).
Proof.
  unfold _isSendInterface. split; [split |].
  - destruct x; simpl; auto; try discriminate.
    destruct (String.eqb (typeof (lookup "node" props)) "string");
      discriminate.
  - intros [-> | ->]; reflexivity.
  - intros Hu Hn. destruct x; simpl; eauto; try congruence.
    destruct (String.eqb (typeof (lookup "node" props)) "string");
      simpl; eauto.
Qed.

Lemma _isSendInterface_throws_iff_witness :
  _isSendInterface JNull = Throw TypeError
  /\ exists b : bool, _isSendInterface (JStr "generate_joke") = Ok b.
Proof.
  split.
  - apply (proj2 (proj1 (_isSendInterface_throws_iff JNull))).
    right. reflexivity.
  - apply (proj2 (_isSendInterface_throws_iff (JStr "generate_joke")));
      discriminate.
Defined.

(** X4: every Send the constructor builds is recognised by [_isSend],
    whatever its arguments, but by [_isSendInterface] only when its [args]
    are not [undefined]. *)
Theorem constructed_Send_recognised (n : string) (a : JSValue) :
  _isSend (Send_to_value (new_Send n a)) = Ok true
  /\ (_isSendInterface (Send_to_value (new_Send n a)) = Ok true
      <-> a <> JUndefined).
Proof.
  split; [reflexivity |].
  unfold _isSendInterface. simpl. rewrite <- is_defined_true.
  split; intros H; [now injection H | now rewrite H].
Qed.

Lemma constructed_Send_recognised_witness :
  _isSendInterface
    (Send_to_value (new_Send "generate_joke" (JObj [("subjects", JArr [])])))
  = Ok true.
Proof.
  apply (proj2 (proj2 (constructed_Send_recognised "generate_joke"
                         (JObj [("subjects", JArr [])])))).
  discriminate.
Defined.

(** X5: the three recognisers keep constructed sends and commands apart: a
    constructed Send is never taken for a Command, and a constructed Command
    is taken neither for a Send nor for a SendInterface. *)
Theorem constructed_values_kept_apart
    (n : string) (a : JSValue) (p : CommandParams) :
  isCommand (Send_to_value (new_Send n a)) = Ok false
  /\ _isSend (Command_to_value (new_Command p)) = Ok false
  /\ _isSendInterface (Command_to_value (new_Command p)) = Ok false.
Proof. repeat split. Qed.

(** X6: no value at all is recognised both as a Command and as a Send. *)
Theorem isCommand_excludes_isSend (x : JSValue) :
  isCommand x = Ok true -> _isSend x = Ok false.
Proof.
  unfold isCommand, _isSend.
  destruct x as [| | b | n | s | elems | props]; simpl; try discriminate;
    try reflexivity.
  intros H. injection H as H.
  destruct (lookup "lg_name" props) as [| | | | s | |]; simpl in *;
    try discriminate H.
  apply String.eqb_eq in H. subst s. reflexivity.
Qed.

Lemma isCommand_excludes_isSend_witness :
  _isSend
    (Command_to_value
       (new_Command (mkCommandParams JUndefined None JUndefined None)))
  = Ok false.
Proof.
  apply (isCommand_excludes_isSend
           (Command_to_value
              (new_Command
                 (mkCommandParams JUndefined None JUndefined None)))).
  reflexivity.
Defined.

(** ** Rebuilding commands *)

(** X7: the constructor's normalisation is idempotent: building a Command
    from a constructed Command gives that Command back. *)
Theorem new_Command_idempotent (a : CommandParams) :
  new_Command (Command_as_params (new_Command a)) = new_Command a.
Proof.
  destruct a as [r g u gt]. unfold new_Command, Command_as_params. simpl.
  destruct gt as [[[name | s] | ts] |]; simpl; try reflexivity.
  destruct (String.eqb name ""); reflexivity.
Qed.

(** ** More on updates as tuples *)

Lemma _updateAsTuples_every_pair (c : Command) :
  forallb is_string_pair (_updateAsTuples c) = true.
Proof.
  unfold _updateAsTuples.
  destruct (update c) as [| | b | n | s | elems | props]; simpl;
    try reflexivity.
  - destruct b; reflexivity.
  - destruct (negb (Z.eqb n 0)); reflexivity.
  - destruct (negb (String.eqb s "")); reflexivity.
  - destruct (forallb is_string_pair elems) eqn:Hev;
      [exact Hev | reflexivity].
  - induction props as [| [k v] rest IH]; simpl; [reflexivity | exact IH].
Qed.

(** X8: the tuples are a normal form: a Command built with the returned
    array as its update returns the same tuples. *)
Theorem _updateAsTuples_fixpoint (c : Command)
    (r : JSValue) (g : option string) (gt : option Goto) :
  _updateAsTuples
    (new_Command (mkCommandParams r g (JArr (_updateAsTuples c)) gt))
  = _updateAsTuples c.
Proof.
  unfold _updateAsTuples at 1. simpl.
  now rewrite _updateAsTuples_every_pair.
Qed.



(** X10: the tuples do not tell a bare root value from an object with the
    single property [__root__]: an update that is neither an object nor an
    array of string pairs gives the same tuples as the object that holds it
    under [__root__]. *)
Theorem _updateAsTuples_root_ambiguous
    (r : JSValue) (g : option string) (gt : option Goto) (v : JSValue) :
  (forall props, v <> JObj props) ->
  (forall elems, v = JArr elems -> forallb is_string_pair elems = false) ->
  _updateAsTuples (new_Command (mkCommandParams r g v gt))
  = _updateAsTuples
      (new_Command (mkCommandParams r g (JObj [("__root__", v)]) gt)).
Proof.
  intros Hobj Harr.
  rewrite (_updateAsTuples_root (new_Command (mkCommandParams r g v gt)));
    [reflexivity | exact Hobj | exact Harr].
Qed.

Lemma _updateAsTuples_root_ambiguous_witness :
  _updateAsTuples
    (new_Command (mkCommandParams JUndefined None (JStr "hi") None))
  = _updateAsTuples
      (new_Command
         (mkCommandParams JUndefined None (JObj [("__root__", JStr "hi")])
            None)).
Proof.
  apply (_updateAsTuples_root_ambiguous JUndefined None None (JStr "hi")).
  - intros props. discriminate.
  - intros elems Hu. discriminate Hu.
Defined.

(** ** The shape of reserved names *)

(** X11: every reserved name starts with two underscores, except
    [checkpoint_map]: any other name without that prefix is free. *)
Theorem RESERVED_prefix (name : string) :
  includes RESERVED name = true ->
  String.prefix "__" name = true \/ name = CONFIG_KEY_CHECKPOINT_MAP.
Proof.
  intros Hin. apply includes_In in Hin. simpl in Hin.
  repeat (destruct Hin as [<- | Hin]; [auto |]).
  destruct Hin.
Qed.

Lemma RESERVED_prefix_witness :
  String.prefix "__" INTERRUPT = true \/ INTERRUPT = CONFIG_KEY_CHECKPOINT_MAP.
Proof.
  apply (RESERVED_prefix INTERRUPT). reflexivity.
Defined.
